(** * Korean spellcheck server: the [/check] endpoint

    A shallow embedding of [src/spellcheck_server/app.py] and the
    properties of its single request handler, [check_spelling].

    The handler calls the external checker [spell_checker.check], reads two
    attributes of what it returns, and wraps them in a [JSONResponse]; all
    of that sits in one [try] block.  Its [except Exception] clause builds a
    fallback response with status 500 from the text and [str(e)]; that
    clause is not itself protected, so what fails there reaches the caller.

    Layout: Python values and exceptions ([Py]), the part of Starlette's
    [JSONResponse] the handler relies on ([Starlette]), the handler itself in
    a small state-and-exception monad ([App]), stub checkers for concrete
    runs ([Stubs]), then the properties. *)

From Stdlib Require Import String Ascii ZArith NArith List Bool Lia.
From Stdlib Require Import Floats.SpecFloat.
Import ListNotations.

#[local] Open Scope string_scope.
#[local] Open Scope Z_scope.

#[local] Set Warnings "-register-all".

(* ===================================================================== *)
(** ** Python values, exceptions and attribute access *)
(* ===================================================================== *)

Module Py.

(** A Python [str].  A str all of whose characters encode as UTF-8 is
    [Text s], with [s] the bytes of that encoding.  A str can also hold lone
    surrogates (U+D800 to U+DFFF), which have no UTF-8 encoding:
    [Surrogate before unit rest] is the text before the first one, that
    surrogate (its offset from U+D800), and the rest of the str.  Wherever
    this file has a plain [string] (the submitted text, class and attribute
    names, dict keys, the messages of built-in exceptions), the str is of
    the first kind. *)
Inductive pystr : Type :=
| Text (s : string)
| Surrogate (before : string) (unit : N) (rest : pystr).

(** The values that can flow through the handler.  [PyFloat] is a float in
    its IEEE 754 reading.  [PyDict] keeps insertion order, as Python dicts
    do, and has str keys.  [PyObj cls base attrs] is an instance of a user
    class [cls] with its attributes; [base] is the built-in value the
    instance is when the class derives from [str], [int], [float], [list],
    [tuple] or [dict] (a namedtuple is a tuple), and [None] for a class that
    derives from none of them. *)
Inductive pyval : Type :=
| PyNone
| PyBool (b : bool)
| PyInt (n : Z)
| PyFloat (f : spec_float)
| PyStr (s : pystr)
| PyList (items : list pyval)
| PyTuple (items : list pyval)
| PyDict (items : list (string * pyval))
| PyObj (cls : string) (base : option pyval) (attrs : list (string * pyval)).

(** A raised exception: the names along [type(e).__mro__] (the class itself
    first) and what [str(e)] does.  [__str__] is code of the exception's
    class: it returns a str, or it raises in its turn (a [__str__] that
    returns something else than a str makes [str(e)] raise [TypeError]). *)
Inductive exn : Type :=
| mkExn (mro : list string) (on_str : str_outcome)
with str_outcome : Type :=
| StrIs (s : pystr)
| StrRaises (e : exn).

Definition exc_mro (e : exn) : list string :=
  match e with mkExn mro _ => mro end.

Definition exc_str (e : exn) : str_outcome :=
  match e with mkExn _ on_str => on_str end.

(** The result of evaluating something that may raise. *)
Inductive result (A : Type) : Type :=
| Ok (a : A)
| Raise (e : exn).

Arguments Ok {A} a.
Arguments Raise {A} e.

(** [isinstance(e, cls)] for an exception [e] and a class given by name. *)
Definition isinstance (e : exn) (cls : string) : bool :=
  existsb (String.eqb cls) (exc_mro e).

(** [str(e)]. *)
Definition str (e : exn) : result pystr :=
  match exc_str e with
  | StrIs s => Ok s
  | StrRaises e' => Raise e'
  end.

(** Built-in exceptions, raised with a message. *)
Definition AttributeError (msg : string) : exn :=
  mkExn ["AttributeError"; "Exception"; "BaseException"; "object"]
        (StrIs (Text msg)).

Definition TypeError (msg : string) : exn :=
  mkExn ["TypeError"; "Exception"; "BaseException"; "object"]
        (StrIs (Text msg)).

Definition ValueError (msg : string) : exn :=
  mkExn ["ValueError"; "Exception"; "BaseException"; "object"]
        (StrIs (Text msg)).

Definition UnicodeEncodeError (msg : string) : exn :=
  mkExn ["UnicodeEncodeError"; "UnicodeError"; "ValueError"; "Exception";
         "BaseException"; "object"]
        (StrIs (Text msg)).

(** [type(v).__name__]. *)
Definition type_name (v : pyval) : string :=
  match v with
  | PyNone => "NoneType"
  | PyBool _ => "bool"
  | PyInt _ => "int"
  | PyFloat _ => "float"
  | PyStr _ => "str"
  | PyList _ => "list"
  | PyTuple _ => "tuple"
  | PyDict _ => "dict"
  | PyObj cls _ _ => cls
  end.

(** Lookup in an insertion-ordered list of items; the first match wins. *)
Fixpoint assoc (k : string) (items : list (string * pyval)) : option pyval :=
  match items with
  | [] => None
  | (k', v) :: rest => if String.eqb k k' then Some v else assoc k rest
  end.

(** [v.name].  An instance yields the attribute when it has it; everything
    else raises [AttributeError] with CPython's message.  The built-in types
    are given no attributes: the handler reads only [checked] and [errors],
    which none of them has. *)
Definition getattr (v : pyval) (name : string) : result pyval :=
  let missing :=
    Raise (AttributeError
             ("'" ++ type_name v ++ "' object has no attribute '" ++ name ++ "'")) in
  match v with
  | PyObj _ _ attrs =>
      match assoc name attrs with
      | Some x => Ok x
      | None => missing
      end
  | _ => missing
  end.

(** [d[k]] read as an option: the value under key [k] of a dict. *)
Definition dict_get (k : string) (d : pyval) : option pyval :=
  match d with
  | PyDict items => assoc k items
  | _ => None
  end.

(** [d[k1][k2]...]: the value reached by a path of keys. *)
Fixpoint dict_path (path : list string) (d : pyval) : option pyval :=
  match path with
  | [] => Some d
  | k :: rest =>
      match dict_get k d with
      | Some v => dict_path rest v
      | None => None
      end
  end.


End Py.

(* ===================================================================== *)
(** ** Starlette's JSONResponse *)
(* ===================================================================== *)

Module Starlette.
Import Py.

(** What the caller of the endpoint receives. *)
Record Response : Type := mkResponse {
  status_code : Z;
  body : pyval
}.

(** [JSONResponse.render] is
    [json.dumps(content, ensure_ascii=False, allow_nan=False, ...)]
    followed by [.encode("utf-8")].  The first step walks the content from
    left to right and raises at the first value it refuses; the second
    raises when the text the first one produced holds a lone surrogate.
    The interpreter's recursion limit is not part of the model, so nesting
    is not bounded here; no property below rests on a nested value being
    encoded. *)

(** [sys.get_int_max_str_digits()], at CPython's default. *)
Definition int_max_str_digits : Z := 4300.

(** The interpreter refuses to write an integer of more decimal digits
    than that. *)
Definition int_too_long (n : Z) : bool :=
  10 ^ int_max_str_digits <=? Z.abs n.

(** A float that is neither [nan] nor an infinity. *)
Definition float_in_range (f : spec_float) : bool :=
  match f with
  | S754_zero _ | S754_finite _ _ _ => true
  | S754_infinity _ | S754_nan => false
  end.

(** Why [json.dumps] refuses a value. *)
Inductive refusal : Type :=
| NotSerializable (cls : string)
| IntTooLong
| FloatOutOfRange.

(** The built-in types an instance is encoded as when its class derives
    from one of them. *)
Definition json_base (b : pyval) : bool :=
  match b with
  | PyInt _ | PyFloat _ | PyStr _ | PyList _ | PyTuple _ | PyDict _ => true
  | PyNone | PyBool _ | PyObj _ _ _ => false
  end.

(** The first refusal of [json.dumps] on [v], in the encoder's order;
    [None] when it produces a text. *)
Fixpoint dumps_refusal (v : pyval) : option refusal :=
  match v with
  | PyNone | PyBool _ | PyStr _ => None
  | PyInt n => if int_too_long n then Some IntTooLong else None
  | PyFloat f => if float_in_range f then None else Some FloatOutOfRange
  | PyList items | PyTuple items =>
      (fix first_refusal (l : list pyval) : option refusal :=
         match l with
         | [] => None
         | x :: rest =>
             match dumps_refusal x with
             | Some r => Some r
             | None => first_refusal rest
             end
         end) items
  | PyDict items =>
      (fix first_refusal (l : list (string * pyval)) : option refusal :=
         match l with
         | [] => None
         | (_, x) :: rest =>
             match dumps_refusal x with
             | Some r => Some r
             | None => first_refusal rest
             end
         end) items
  | PyObj cls (Some b) _ =>
      if json_base b then dumps_refusal b else Some (NotSerializable cls)
  | PyObj cls None _ => Some (NotSerializable cls)
  end.

(** Whether the text [json.dumps] produces for [v] holds a lone
    surrogate. *)
Fixpoint has_surrogate (v : pyval) : bool :=
  match v with
  | PyStr (Text _) => false
  | PyStr (Surrogate _ _ _) => true
  | PyList items | PyTuple items =>
      (fix any (l : list pyval) : bool :=
         match l with
         | [] => false
         | x :: rest => has_surrogate x || any rest
         end) items
  | PyDict items =>
      (fix any (l : list (string * pyval)) : bool :=
         match l with
         | [] => false
         | (_, x) :: rest => has_surrogate x || any rest
         end) items
  | PyObj _ (Some b) _ => has_surrogate b
  | _ => false
  end.

(** The exception [json.dumps] raises for a refusal, with the text of
    CPython 3.11. *)
Definition refusal_exn (r : refusal) : exn :=
  match r with
  | NotSerializable cls =>
      TypeError ("Object of type " ++ cls ++ " is not JSON serializable")
  | IntTooLong =>
      ValueError
        "Exceeds the limit (4300 digits) for integer string conversion; use sys.set_int_max_str_digits() to increase the limit"
  | FloatOutOfRange =>
      ValueError "Out of range float values are not JSON compliant"
  end.

Section Render.

(** The text of the [UnicodeEncodeError] for a content whose rendering
    holds a lone surrogate.  It names the character and its position in the
    rendered text, which is not worked out here: the properties hold
    whatever it is. *)
Variable codec_says : pyval -> string.

(** [JSONResponse(content, status_code=...)].  The constructor renders the
    body at once, so content that does not encode raises at the call;
    [None] for the status stands for the omitted argument, whose default
    is 200. *)
Definition JSONResponse (content : pyval) (status : option Z) : result Response :=
  match dumps_refusal content with
  | Some r => Raise (refusal_exn r)
  | None =>
      if has_surrogate content
      then Raise (UnicodeEncodeError (codec_says content))
      else Ok (mkResponse (match status with Some c => c | None => 200 end) content)
  end.

End Render.

End Starlette.

(* ===================================================================== *)
(** ** The request handler *)
(* ===================================================================== *)

Module App.
Import Py Starlette.

Section Handler.

Variable codec_says : pyval -> string.

(** The external checker, [spell_checker.check]: given the text and its
    own state (the network, the remote service), it returns a value or
    raises, and leaves a new state behind. *)
Context {S : Type}.
Variable spell_checker_check : string -> S -> result pyval * S.

(** The world a request runs in: the checker's state, and the arguments
    of the calls made to the checker so far, oldest first. *)
Record world : Type := mkWorld {
  checker_state : S;
  check_calls : list string
}.

(** Computations that read and change the world and may raise. *)
Definition M (A : Type) : Type := world -> result A * world.

Definition ret {A} (a : A) : M A := fun w => (Ok a, w).

Definition bind {A B} (m : M A) (k : A -> M B) : M B :=
  fun w =>
    match m w with
    | (Ok a, w') => k a w'
    | (Raise e, w') => (Raise e, w')
    end.

(** A pure evaluation that may raise. *)
Definition lift {A} (r : result A) : M A := fun w => (r, w).

(** [try: body / except Exception as e: handler(e)]: an exception of
    [body] is handled when it is an instance of [Exception], and goes on
    to the caller otherwise.  What [handler] raises is not handled. *)
Definition try_except_Exception {A} (body : M A) (handler : exn -> M A) : M A :=
  fun w =>
    match body w with
    | (Ok a, w') => (Ok a, w')
    | (Raise e, w') =>
        if isinstance e "Exception" then handler e w' else (Raise e, w')
    end.

(** The call [spell_checker.check(arg)]. *)
Definition check (arg : string) : M pyval :=
  fun w =>
    let (r, s') := spell_checker_check arg (checker_state w) in
    (r, mkWorld s' (check_calls w ++ [arg])).

Notation "x <- m ;; k" := (bind m (fun x => k))
  (at level 61, m at next level, right associativity).

(** [check_spelling(text)], lines 16 to 38 of [app.py].  The text is a form
    field, which the framework decodes from the bytes of the request: a
    str that encodes. *)
Definition check_spelling (text : string) : M Response :=
  try_except_Exception
    (result <- check text ;;
     corrected <- lift (getattr result "checked") ;;
     errors <- lift (getattr result "errors") ;;
     lift (JSONResponse codec_says
             (PyDict [ ("corrected", corrected);
                       ("original", PyStr (Text text));
                       ("result", PyDict [ ("errata_count", errors) ]) ])
             None))
    (fun e =>
       message <- lift (str e) ;;
       lift (JSONResponse codec_says
               (PyDict [ ("corrected", PyStr (Text text));
                         ("original", PyStr (Text text));
                         ("error", PyStr message) ])
               (Some 500))).

End Handler.

(** The content of the success response, lines 21 to 27. *)
Definition success_content (text : string) (corrected errors : pyval) : pyval :=
  PyDict [ ("corrected", corrected);
           ("original", PyStr (Text text));
           ("result", PyDict [ ("errata_count", errors) ]) ].

(** The content of the fallback response, lines 32 to 36. *)
Definition fallback_content (text : string) (message : pystr) : pyval :=
  PyDict [ ("corrected", PyStr (Text text));
           ("original", PyStr (Text text));
           ("error", PyStr message) ].

(** The fallback response, for a text and a message that encodes. *)
Definition degraded (text msg : string) : Response :=
  mkResponse 500 (fallback_content text (Text msg)).

(** The [except] clause on its own, lines 31 to 38, for a caught [e]. *)
Definition except_clause (codec_says : pyval -> string)
    (text : string) (e : exn) : result Response :=
  match str e with
  | Raise e' => Raise e'
  | Ok message =>
      JSONResponse codec_says (fallback_content text message) (Some 500)
  end.

(** The two shapes a response can take: status 200 with the three keys of
    the success body, status 500 with the three keys of the fallback. *)
Definition keys (d : pyval) : list string :=
  match d with
  | PyDict items => map fst items
  | _ => []
  end.

Definition is_success (r : Response) : Prop :=
  status_code r = 200 /\ keys (body r) = ["corrected"; "original"; "result"].

Definition is_degraded (r : Response) : Prop :=
  status_code r = 500 /\ keys (body r) = ["corrected"; "original"; "error"].



End App.

(* ===================================================================== *)
(** ** Stub checkers and sample exceptions for concrete runs *)
(* ===================================================================== *)

Module Stubs.
Import Py Starlette App.

(** The record a well-behaved checker returns: a namedtuple with the
    fields [checked] and [errors]. *)
Definition Checked (checked : string) (errors : Z) : pyval :=
  PyObj "Checked"
    (Some (PyTuple [ PyStr (Text checked); PyInt errors ]))
    [ ("checked", PyStr (Text checked)); ("errors", PyInt errors) ].

(** A checker without state that returns [v] whatever the text. *)
Definition returns (v : pyval) : string -> unit -> result pyval * unit :=
  fun _ s => (Ok v, s).

(** A checker without state that raises [e] whatever the text. *)
Definition raises (e : exn) : string -> unit -> result pyval * unit :=
  fun _ s => (Raise e, s).

(** A checker that finds nothing to correct and counts the requests it has
    served. *)
Definition echo_counting : string -> nat -> result pyval * nat :=
  fun text served => (Ok (Checked text 0), Datatypes.S served).

(** [Exception()], raised without a message. *)
Definition bare_Exception : exn :=
  mkExn ["Exception"; "BaseException"; "object"] (StrIs (Text "")).

(** [ConnectionError(msg)]. *)
Definition ConnectionError (msg : string) : exn :=
  mkExn ["ConnectionError"; "OSError"; "Exception"; "BaseException"; "object"]
        (StrIs (Text msg)).

(** [KeyboardInterrupt()], which is not an [Exception]. *)
Definition KeyboardInterrupt : exn :=
  mkExn ["KeyboardInterrupt"; "BaseException"; "object"] (StrIs (Text "")).


(** [RuntimeError(msg)]. *)
Definition RuntimeError (msg : string) : exn :=
  mkExn ["RuntimeError"; "Exception"; "BaseException"; "object"]
        (StrIs (Text msg)).

(** An instance of an [Exception] subclass whose [__str__] raises
    [RuntimeError("boom")]. *)
Definition unprintable_Exception : exn :=
  mkExn ["Unprintable"; "Exception"; "BaseException"; "object"]
        (StrRaises (RuntimeError "boom")).


(** A sample text for the codec's error. *)
Definition codec_says (content : pyval) : string :=
  "'utf-8' codec can't encode character '\ud800' in position 14: surrogates not allowed".

(** A fresh world: nothing has been sent to the checker yet. *)
Definition fresh {S : Type} (s : S) : world := mkWorld s [].

End Stubs.

(* ===================================================================== *)
(** ** Properties of the handler *)
(* ===================================================================== *)

Import Py Starlette App.

(** *** Facts about the Python and Starlette layer *)

(** An exception of the built-in kind: an [Exception] whose [str] is a
    text that encodes. *)
Definition printable_error (e : exn) : Prop :=
  isinstance e "Exception" = true /\ exists msg, str e = Ok (Text msg).

Lemma getattr_raise (v : pyval) (name : string) (e : exn) :
  getattr v name = Raise e ->
  e = AttributeError
        ("'" ++ type_name v ++ "' object has no attribute '" ++ name ++ "'").
Proof.
  unfold getattr.
  destruct v as [| b | n | f | s | items | items | items | cls base attrs];
    try (intros [= <-]; reflexivity).
  destruct (assoc name attrs); [discriminate | intros [= <-]; reflexivity].
Qed.


Lemma getattr_raise_printable (v : pyval) (name : string) (e : exn) :
  getattr v name = Raise e -> printable_error e.
Proof.
  intros H. rewrite (getattr_raise _ _ _ H).
  split; [reflexivity | eexists; reflexivity].
Qed.

Lemma refusal_exn_printable (r : refusal) : printable_error (refusal_exn r).
Proof. destruct r; (split; [reflexivity | eexists; reflexivity]). Qed.

Lemma JSONResponse_raise_printable
    (codec_says : pyval -> string) (content : pyval) (status : option Z) (e : exn) :
  JSONResponse codec_says content status = Raise e -> printable_error e.
Proof.
  unfold JSONResponse.
  destruct (dumps_refusal content) as [r |].
  - intros [= <-]. apply refusal_exn_printable.
  - destruct (has_surrogate content); [| discriminate].
    intros [= <-]. split; [reflexivity | eexists; reflexivity].
Qed.

(** The success content with a text and a count the interpreter writes. *)
Lemma JSONResponse_success
    (codec_says : pyval -> string) (text checked : string) (errors : Z) :
  int_too_long errors = false ->
  JSONResponse codec_says
    (success_content text (PyStr (Text checked)) (PyInt errors)) None
  = Ok (mkResponse 200
          (success_content text (PyStr (Text checked)) (PyInt errors))).
Proof.
  intros Hz. unfold JSONResponse, success_content.
  cbn [dumps_refusal has_surrogate orb]. rewrite Hz. reflexivity.
Qed.

(** The same with a count that is too long. *)
Lemma JSONResponse_int_too_long
    (codec_says : pyval -> string) (text checked : string) (errors : Z) :
  int_too_long errors = true ->
  JSONResponse codec_says
    (success_content text (PyStr (Text checked)) (PyInt errors)) None
  = Raise (refusal_exn IntTooLong).
Proof.
  intros Hz. unfold JSONResponse, success_content.
  cbn [dumps_refusal]. rewrite Hz. reflexivity.
Qed.

(** Ten to the 4300 is the first integer that is too long, and the sign
    does not matter. *)
Lemma int_too_long_limit : int_too_long (10 ^ 4300) = true.
Proof.
  unfold int_too_long, int_max_str_digits. apply Z.leb_le.
  rewrite Z.abs_eq; [apply Z.le_refl | apply Z.pow_nonneg; easy].
Qed.


(** The [except] clause, by cases on what [str(e)] does. *)
Lemma except_clause_text
    (codec_says : pyval -> string) (text : string) (e : exn) (msg : string) :
  str e = Ok (Text msg) ->
  except_clause codec_says text e = Ok (degraded text msg).
Proof. intros H. unfold except_clause. rewrite H. reflexivity. Qed.

Lemma except_clause_surrogate
    (codec_says : pyval -> string) (text : string) (e : exn)
    (before : string) (unit : N) (rest : pystr) :
  str e = Ok (Surrogate before unit rest) ->
  except_clause codec_says text e
  = Raise (UnicodeEncodeError
             (codec_says (fallback_content text (Surrogate before unit rest)))).
Proof. intros H. unfold except_clause. rewrite H. reflexivity. Qed.

Lemma except_clause_str_raises
    (codec_says : pyval -> string) (text : string) (e e' : exn) :
  str e = Raise e' ->
  except_clause codec_says text e = Raise e'.
Proof. intros H. unfold except_clause. rewrite H. reflexivity. Qed.






(** *** The handler, one equation *)

Section Properties.

Variable codec_says : pyval -> string.
Context {S : Type}.
Variable cap : string -> S -> result pyval * S.

(** What a run of the handler comes to, by cases on what the checker and
    the steps after it do. *)
Lemma check_spelling_run (text : string) (w : world) :
  check_spelling codec_says cap text w =
  (match fst (cap text (checker_state w)) with
   | Raise e =>
       if isinstance e "Exception"
       then except_clause codec_says text e
       else Raise e
   | Ok r =>
       match getattr r "checked" with
       | Raise e => except_clause codec_says text e
       | Ok c =>
           match getattr r "errors" with
           | Raise e => except_clause codec_says text e
           | Ok n =>
               match JSONResponse codec_says (success_content text c n) None with
               | Ok resp => Ok resp
               | Raise e => except_clause codec_says text e
               end
           end
       end
   end,
   mkWorld (snd (cap text (checker_state w))) (check_calls w ++ [text])).
Proof.
  assert (Hexcept : forall (e : exn) (w' : @world S),
             bind (lift (str e))
               (fun message =>
                  lift (JSONResponse codec_says
                          (PyDict [ ("corrected", PyStr (Text text));
                                    ("original", PyStr (Text text));
                                    ("error", PyStr message) ])
                          (Some 500))) w'
             = (except_clause codec_says text e, w')).
  { intros e w'. unfold bind, lift, except_clause, fallback_content.
    destruct (str e); reflexivity. }
  unfold check_spelling, try_except_Exception.
  unfold bind at 1 2 3. unfold check, lift at 1 2 3.
  fold (success_content text).
  destruct (cap text (checker_state w)) as [[r | e] s']; cbn [fst snd].
  - destruct (getattr r "checked") as [c | e] eqn:Hc.
    + destruct (getattr r "errors") as [n | e] eqn:Hn.
      * destruct (JSONResponse codec_says _ None) as [resp | e] eqn:Hj;
          [reflexivity |].
        destruct (JSONResponse_raise_printable _ _ _ _ Hj) as [-> _].
        apply Hexcept.
      * destruct (getattr_raise_printable _ _ _ Hn) as [-> _]. apply Hexcept.
    + destruct (getattr_raise_printable _ _ _ Hc) as [-> _]. apply Hexcept.
  - destruct (isinstance e "Exception"); [apply Hexcept | reflexivity].
Qed.

(** A count that is too long makes the encoder refuse the success
    content, and the response is the fallback with the interpreter's
    text. *)
Lemma too_long_count_degraded
    (text : string) (w : world) (r : pyval) (checked : string) (z : Z) :
  fst (cap text (checker_state w)) = Ok r ->
  getattr r "checked" = Ok (PyStr (Text checked)) ->
  getattr r "errors" = Ok (PyInt z) ->
  int_too_long z = true ->
  fst (check_spelling codec_says cap text w)
  = Ok (degraded text
          "Exceeds the limit (4300 digits) for integer string conversion; use sys.set_int_max_str_digits() to increase the limit").
Proof.
  intros Hcap Hc Hn Hz.
  rewrite check_spelling_run, Hcap, Hc, Hn. cbn [fst].
  rewrite (JSONResponse_int_too_long _ _ _ _ Hz). reflexivity.
Qed.


(** *** The success path *)

(** C1, as amended.  When the checker returns a result whose [checked] is a
    string that encodes as UTF-8 and whose [errors] is a count of at most
    4300 decimal digits, the response has status 200, [original] is the
    submitted text, [corrected] is the result's [checked] and
    [result.errata_count] is the result's [errors]. *)
Theorem check_spelling_success
    (text : string) (w : world) (r : pyval) (checked : string) (errors : Z) :
  fst (cap text (checker_state w)) = Ok r ->
  getattr r "checked" = Ok (PyStr (Text checked)) ->
  getattr r "errors" = Ok (PyInt errors) ->
  int_too_long errors = false ->
  exists resp,
    fst (check_spelling codec_says cap text w) = Ok resp /\
    status_code resp = 200 /\
    dict_get "original" (body resp) = Some (PyStr (Text text)) /\
    dict_get "corrected" (body resp) = Some (PyStr (Text checked)) /\
    dict_path ["result"; "errata_count"] (body resp) = Some (PyInt errors).
Proof.
  intros Hcap Hc Hn Hz.
  rewrite check_spelling_run, Hcap, Hc, Hn. cbn [fst].
  rewrite (JSONResponse_success _ _ _ _ Hz).
  eexists; split; [reflexivity |]. repeat split.
Qed.


(** *** The failure path *)


(** C3, as amended.  When the checker raises an error [e] and the fallback
    response is returned, which is when [str(e)] is a string that encodes
    as UTF-8, the [error] field is that string; it is non-empty exactly
    when [str(e)] is. *)
Theorem error_field_is_str
    (text : string) (w : world) (e : exn) (msg : string) :
  fst (cap text (checker_state w)) = Raise e ->
  isinstance e "Exception" = true ->
  str e = Ok (Text msg) ->
  exists resp,
    fst (check_spelling codec_says cap text w) = Ok resp /\
    is_degraded resp /\
    dict_get "error" (body resp) = Some (PyStr (Text msg)) /\
    (dict_get "error" (body resp) <> Some (PyStr (Text "")) <-> msg <> "").
Proof.
  intros Hcap Hexc Hstr.
  rewrite check_spelling_run, Hcap, Hexc. cbn [fst].
  rewrite (except_clause_text _ _ _ _ Hstr).
  eexists; split; [reflexivity |]. cbn.
  repeat split; congruence.
Qed.


(** *** Every answerable request is answered *)



(** *** What the checker is given *)

(** C5.  The handler calls the checker once, and the argument of that call
    is the submitted text itself: the record of calls grows by exactly the
    text, and the checker is left in the state it reaches on that text. *)
Theorem check_receives_text_unmodified (text : string) (w : world) :
  check_calls (snd (check_spelling codec_says cap text w))
  = (check_calls w ++ [text])%list /\
  checker_state (snd (check_spelling codec_says cap text w))
  = snd (cap text (checker_state w)).
Proof. rewrite check_spelling_run. split; reflexivity. Qed.

(** *** Relations between request and response *)

(** C6, as amended.  When the checker returns a result with an errors
    count of 0 and a [checked] string that encodes as UTF-8, [corrected] is
    the result's [checked] string; it is the submitted text exactly when
    the checker returned the text unchanged. *)
Theorem corrected_is_checked_when_no_errors
    (text : string) (w : world) (r : pyval) (checked : string) :
  fst (cap text (checker_state w)) = Ok r ->
  getattr r "errors" = Ok (PyInt 0) ->
  getattr r "checked" = Ok (PyStr (Text checked)) ->
  exists resp,
    fst (check_spelling codec_says cap text w) = Ok resp /\
    is_success resp /\
    dict_get "corrected" (body resp) = Some (PyStr (Text checked)) /\
    (dict_get "corrected" (body resp) = Some (PyStr (Text text))
     <-> checked = text).
Proof.
  intros Hcap Hn Hc.
  rewrite check_spelling_run, Hcap, Hc, Hn. cbn [fst].
  rewrite JSONResponse_success by reflexivity.
  eexists; split; [reflexivity |]. cbn.
  repeat split; congruence.
Qed.

(** C7.  Two requests with the same text, to a checker that does the same
    thing on both (the same value returned, or the same exception raised),
    get the same response: same status, same body.  The two runs may start
    from different worlds. *)
Theorem check_spelling_deterministic (text : string) (w1 w2 : world) :
  fst (cap text (checker_state w1)) = fst (cap text (checker_state w2)) ->
  fst (check_spelling codec_says cap text w1)
  = fst (check_spelling codec_says cap text w2).
Proof.
  intros Hsame. rewrite !check_spelling_run. cbn [fst].
  rewrite Hsame. reflexivity.
Qed.

End Properties.

(* ===================================================================== *)
(** ** Further properties of the handler *)
(* ===================================================================== *)

Section Further.

Variable codec_says : pyval -> string.
Context {S : Type}.
Variable cap : string -> S -> result pyval * S.

(** X1.  [except Exception] lets through what is raised from outside the
    [Exception] branch of the hierarchy ([KeyboardInterrupt],
    [SystemExit]): such an exit of the checker is not an error, and it
    goes on to the caller as it is. *)
Theorem non_Exception_passes_through (text : string) (w : world) (e : exn) :
  fst (cap text (checker_state w)) = Raise e ->
  isinstance e "Exception" = false ->
  fst (check_spelling codec_says cap text w) = Raise e.
Proof.
  intros Hcap Hexc. rewrite check_spelling_run, Hcap, Hexc. reflexivity.
Qed.




(** X7.  Two requests in a row make two calls, in order and nothing more:
    the checker is not called again after a failure, and the state it left
    after the first text is the state it gets for the second, whether the
    first request ended in a response or not. *)
Theorem two_requests_two_calls (t1 t2 : string) (w : world) :
  let w1 := snd (check_spelling codec_says cap t1 w) in
  let w2 := snd (check_spelling codec_says cap t2 w1) in
  check_calls w2 = (check_calls w ++ [t1; t2])%list /\
  checker_state w2 = snd (cap t2 (snd (cap t1 (checker_state w)))).
Proof.
  cbn zeta. rewrite !check_spelling_run. cbn [snd check_calls checker_state].
  rewrite <- app_assoc. split; reflexivity.
Qed.

(** X8.  The [except] clause is not protected.  For a caught error [e]:
    when [str(e)] is a string that encodes, the response is the fallback
    with that string; when [str(e)] holds a lone surrogate, building the
    fallback raises [UnicodeEncodeError], which reaches the caller; when
    [str(e)] itself raises, that exception reaches the caller. *)
Theorem failing_except_clause_propagates (text : string) (w : world) (e : exn) :
  fst (cap text (checker_state w)) = Raise e ->
  isinstance e "Exception" = true ->
  match str e with
  | Ok (Text msg) =>
      fst (check_spelling codec_says cap text w) = Ok (degraded text msg)
  | Ok (Surrogate _ _ _) =>
      exists e',
        fst (check_spelling codec_says cap text w) = Raise e' /\
        isinstance e' "UnicodeEncodeError" = true
  | Raise e' =>
      fst (check_spelling codec_says cap text w) = Raise e'
  end.
Proof.
  intros Hcap Hexc. rewrite check_spelling_run, Hcap, Hexc. cbn [fst].
  unfold except_clause.
  destruct (str e) as [[msg | before unit rest] | e']; try reflexivity.
  eexists; split; reflexivity.
Qed.

End Further.

(** X5.  Of the object the checker returns, only [checked] and [errors]
    reach the caller: two checkers (of any kind, in any state) whose results
    agree on these two reads get the same response, whatever else the
    objects hold. *)
Theorem response_reads_two_attributes
    (codec_says : pyval -> string) {S1 S2 : Type}
    (cap1 : string -> S1 -> result pyval * S1)
    (cap2 : string -> S2 -> result pyval * S2)
    (text : string) (w1 : @world S1) (w2 : @world S2) (r1 r2 : pyval) :
  fst (cap1 text (checker_state w1)) = Ok r1 ->
  fst (cap2 text (checker_state w2)) = Ok r2 ->
  getattr r1 "checked" = getattr r2 "checked" ->
  getattr r1 "errors" = getattr r2 "errors" ->
  fst (check_spelling codec_says cap1 text w1)
  = fst (check_spelling codec_says cap2 text w2).
Proof.
  intros H1 H2 Hc Hn.
  rewrite !check_spelling_run. cbn [fst].
  rewrite H1, H2, Hc, Hn. reflexivity.
Qed.

(* ===================================================================== *)
(** ** Concrete runs *)
(* ===================================================================== *)

(** The three scenarios of the specification that reach the handler. *)

Example scenario_nothing_to_correct :
  fst (check_spelling Stubs.codec_says
         (Stubs.returns (Stubs.Checked "오늘 날씨가 좋아요" 0))
         "오늘 날씨가 좋아요" (Stubs.fresh tt))
  = Ok (mkResponse 200
          (PyDict [ ("corrected", PyStr (Text "오늘 날씨가 좋아요"));
                    ("original", PyStr (Text "오늘 날씨가 좋아요"));
                    ("result", PyDict [ ("errata_count", PyInt 0) ]) ])).
Proof. reflexivity. Qed.

Example scenario_one_correction :
  fst (check_spelling Stubs.codec_says
         (Stubs.returns (Stubs.Checked "나는 밥을 먹었다" 1))
         "나는 밥을먹었다" (Stubs.fresh tt))
  = Ok (mkResponse 200
          (PyDict [ ("corrected", PyStr (Text "나는 밥을 먹었다"));
                    ("original", PyStr (Text "나는 밥을먹었다"));
                    ("result", PyDict [ ("errata_count", PyInt 1) ]) ])).
Proof. reflexivity. Qed.

Example scenario_timeout :
  fst (check_spelling Stubs.codec_says
         (Stubs.raises (Stubs.ConnectionError "timeout"))
         "안녕" (Stubs.fresh tt))
  = Ok (mkResponse 500
          (PyDict [ ("corrected", PyStr (Text "안녕"));
                    ("original", PyStr (Text "안녕"));
                    ("error", PyStr (Text "timeout")) ])).
Proof. reflexivity. Qed.

Example scenario_interrupt :
  fst (check_spelling Stubs.codec_says
         (Stubs.raises Stubs.KeyboardInterrupt) "안녕" (Stubs.fresh tt))
  = Raise Stubs.KeyboardInterrupt.
Proof. reflexivity. Qed.

(** A checker's namedtuple put whole under [checked] encodes, as a tuple
    does. *)
Example scenario_namedtuple_value :
  fst (check_spelling Stubs.codec_says
         (Stubs.returns
            (PyObj "Reply" None
               [ ("checked", Stubs.Checked "a b" 1); ("errors", PyInt 1) ]))
         "ab" (Stubs.fresh tt))
  = Ok (mkResponse 200
          (success_content "ab" (Stubs.Checked "a b" 1) (PyInt 1))).
Proof. reflexivity. Qed.

(** *** Instances of the claims' theorems *)

Lemma check_spelling_success_witness :
  exists resp,
    fst (check_spelling Stubs.codec_says
           (Stubs.returns (Stubs.Checked "나는 밥을 먹었다" 1))
           "나는 밥을먹었다" (Stubs.fresh tt)) = Ok resp /\
    status_code resp = 200 /\
    dict_get "original" (body resp) = Some (PyStr (Text "나는 밥을먹었다")) /\
    dict_get "corrected" (body resp) = Some (PyStr (Text "나는 밥을 먹었다")) /\
    dict_path ["result"; "errata_count"] (body resp) = Some (PyInt 1).
Proof.
  apply (check_spelling_success Stubs.codec_says
           (Stubs.returns (Stubs.Checked "나는 밥을 먹었다" 1))
           "나는 밥을먹었다" (Stubs.fresh tt)
           (Stubs.Checked "나는 밥을 먹었다" 1) "나는 밥을 먹었다" 1);
    reflexivity.
Defined.

(** C1 as first stated fails: a count of 4301 digits is a count the checker
    can return, the encoder refuses it inside the [try] block, and the
    response is the fallback with status 500. *)
Lemma huge_errors_count_answered_500 :
  fst (Stubs.returns (Stubs.Checked "ab" (10 ^ 4300)) "ab" tt)
  = Ok (Stubs.Checked "ab" (10 ^ 4300)) /\
  getattr (Stubs.Checked "ab" (10 ^ 4300)) "checked" = Ok (PyStr (Text "ab")) /\
  getattr (Stubs.Checked "ab" (10 ^ 4300)) "errors" = Ok (PyInt (10 ^ 4300)) /\
  fst (check_spelling Stubs.codec_says
         (Stubs.returns (Stubs.Checked "ab" (10 ^ 4300))) "ab" (Stubs.fresh tt))
  = Ok (degraded "ab"
          "Exceeds the limit (4300 digits) for integer string conversion; use sys.set_int_max_str_digits() to increase the limit") /\
  status_code
    (degraded "ab"
       "Exceeds the limit (4300 digits) for integer string conversion; use sys.set_int_max_str_digits() to increase the limit")
  <> 200.
Proof.
  split; [reflexivity |]. split; [reflexivity |]. split; [reflexivity |].
  split; [| discriminate].
  apply (too_long_count_degraded Stubs.codec_says
           (Stubs.returns (Stubs.Checked "ab" (10 ^ 4300)))
           "ab" (Stubs.fresh tt) (Stubs.Checked "ab" (10 ^ 4300)) "ab" (10 ^ 4300));
    [reflexivity | reflexivity | reflexivity | exact int_too_long_limit].
Qed.





Lemma error_field_is_str_witness :
  exists resp,
    fst (check_spelling Stubs.codec_says
           (Stubs.raises (Stubs.ConnectionError "timeout"))
           "안녕" (Stubs.fresh tt)) = Ok resp /\
    is_degraded resp /\
    dict_get "error" (body resp) = Some (PyStr (Text "timeout")) /\
    (dict_get "error" (body resp) <> Some (PyStr (Text "")) <-> "timeout" <> "").
Proof.
  apply (error_field_is_str Stubs.codec_says
           (Stubs.raises (Stubs.ConnectionError "timeout"))
           "안녕" (Stubs.fresh tt) (Stubs.ConnectionError "timeout") "timeout");
    reflexivity.
Defined.

(** C3 as first stated fails: [Exception()] is an error whose [str] is
    empty, and the fallback response then carries an empty [error]. *)
Lemma error_field_can_be_empty :
  isinstance Stubs.bare_Exception "Exception" = true /\
  fst (check_spelling Stubs.codec_says
         (Stubs.raises Stubs.bare_Exception) "안녕" (Stubs.fresh tt))
  = Ok (degraded "안녕" "") /\
  ~ (exists msg,
       dict_get "error" (body (degraded "안녕" "")) = Some (PyStr (Text msg)) /\
       msg <> "").
Proof.
  split; [reflexivity |]. split; [reflexivity |].
  intros [msg [Hget Hne]]. cbn in Hget.
  injection Hget as <-. apply Hne. reflexivity.
Qed.




Lemma corrected_is_checked_when_no_errors_witness :
  exists resp,
    fst (check_spelling Stubs.codec_says
           Stubs.echo_counting "오늘 날씨가 좋아요" (Stubs.fresh 0%nat))
    = Ok resp /\
    is_success resp /\
    dict_get "corrected" (body resp) = Some (PyStr (Text "오늘 날씨가 좋아요")) /\
    (dict_get "corrected" (body resp) = Some (PyStr (Text "오늘 날씨가 좋아요"))
     <-> "오늘 날씨가 좋아요" = "오늘 날씨가 좋아요").
Proof.
  apply (corrected_is_checked_when_no_errors Stubs.codec_says
           Stubs.echo_counting "오늘 날씨가 좋아요" (Stubs.fresh 0%nat)
           (Stubs.Checked "오늘 날씨가 좋아요" 0) "오늘 날씨가 좋아요");
    reflexivity.
Defined.

(** C6 as first stated fails: the handler never looks at the errors count,
    so a checker that reports 0 errors and a changed string gets the changed
    string through. *)
Lemma no_errors_yet_corrected_differs :
  fst (Stubs.returns (Stubs.Checked "a b" 0) "ab" tt) = Ok (Stubs.Checked "a b" 0) /\
  getattr (Stubs.Checked "a b" 0) "errors" = Ok (PyInt 0) /\
  fst (check_spelling Stubs.codec_says
         (Stubs.returns (Stubs.Checked "a b" 0)) "ab" (Stubs.fresh tt))
  = Ok (mkResponse 200
          (PyDict [ ("corrected", PyStr (Text "a b"));
                    ("original", PyStr (Text "ab"));
                    ("result", PyDict [ ("errata_count", PyInt 0) ]) ])) /\
  dict_get "corrected"
    (PyDict [ ("corrected", PyStr (Text "a b"));
              ("original", PyStr (Text "ab"));
              ("result", PyDict [ ("errata_count", PyInt 0) ]) ])
  <> Some (PyStr (Text "ab")).
Proof.
  repeat split. cbn. discriminate.
Qed.

Lemma check_spelling_deterministic_witness :
  fst (check_spelling Stubs.codec_says Stubs.echo_counting "ab" (Stubs.fresh 0%nat))
  = fst (check_spelling Stubs.codec_says Stubs.echo_counting "ab"
           (snd (check_spelling Stubs.codec_says Stubs.echo_counting "ab"
                   (Stubs.fresh 0%nat)))).
Proof.
  apply (check_spelling_deterministic Stubs.codec_says
           Stubs.echo_counting "ab" (Stubs.fresh 0%nat)
           (snd (check_spelling Stubs.codec_says Stubs.echo_counting "ab"
                   (Stubs.fresh 0%nat))));
    reflexivity.
Defined.


(** *** Instances of the further properties *)

Lemma non_Exception_passes_through_witness :
  fst (check_spelling Stubs.codec_says
         (Stubs.raises Stubs.KeyboardInterrupt) "안녕" (Stubs.fresh tt))
  = Raise Stubs.KeyboardInterrupt.
Proof.
  apply (non_Exception_passes_through Stubs.codec_says
           (Stubs.raises Stubs.KeyboardInterrupt) "안녕" (Stubs.fresh tt)
           Stubs.KeyboardInterrupt);
    reflexivity.
Defined.



Lemma response_reads_two_attributes_witness :
  fst (check_spelling Stubs.codec_says
         (Stubs.returns (Stubs.Checked "a b" 1)) "ab" (Stubs.fresh tt))
  = fst (check_spelling Stubs.codec_says
           (fun (_ : string) (served : nat) =>
              (Ok (PyObj "Reply" None
                     [ ("result", PyBool true); ("original", PyStr (Text "ab"));
                       ("checked", PyStr (Text "a b")); ("errors", PyInt 1);
                       ("time", PyInt 0) ]),
               Datatypes.S served))
           "ab" (Stubs.fresh 7%nat)).
Proof.
  apply (response_reads_two_attributes Stubs.codec_says
           (Stubs.returns (Stubs.Checked "a b" 1))
           (fun (_ : string) (served : nat) =>
              (Ok (PyObj "Reply" None
                     [ ("result", PyBool true); ("original", PyStr (Text "ab"));
                       ("checked", PyStr (Text "a b")); ("errors", PyInt 1);
                       ("time", PyInt 0) ]),
               Datatypes.S served))
           "ab" (Stubs.fresh tt) (Stubs.fresh 7%nat)
           (Stubs.Checked "a b" 1)
           (PyObj "Reply" None
              [ ("result", PyBool true); ("original", PyStr (Text "ab"));
                ("checked", PyStr (Text "a b")); ("errors", PyInt 1);
                ("time", PyInt 0) ]));
    reflexivity.
Defined.

Lemma failing_except_clause_propagates_witness :
  fst (check_spelling Stubs.codec_says
         (Stubs.raises Stubs.unprintable_Exception) "안녕" (Stubs.fresh tt))
  = Raise (Stubs.RuntimeError "boom").
Proof.
  exact (failing_except_clause_propagates Stubs.codec_says
           (Stubs.raises Stubs.unprintable_Exception) "안녕" (Stubs.fresh tt)
           Stubs.unprintable_Exception eq_refl eq_refl).
Defined.
